(** * calculate_reimbursement.py: a shallow embedding

    The module computes a trip reimbursement from the number of days, the
    miles travelled and the receipt total.  Python floats are modelled at
    the level of values: a finite float is an exact rational number (no
    binary64 rounding and no overflow of finite values), and the special
    values +inf, -inf and nan are kept, with their IEEE behaviour under
    +, -, * and comparison.  The one float error of the module, the
    [OverflowError] of converting an int beyond the float range, is kept:
    [float()] raises it, and the [try] block raises it when an int that
    its arithmetic converts to float is out of range.  Float literals such as [0.4] are read as the
    decimal numbers they spell. *)

From Stdlib Require Import ZArith QArith Qabs Qround Qminmax Lqa Ascii String Bool Lia List.
Import ListNotations.

Open Scope Q_scope.

(** ** Python floats *)

Inductive flt : Type :=
| Fin (q : Q)
| PInf
| NInf
| NaN.

(** The float operations the module uses, as a class: the arithmetic on
    [flt] is the Python one, the arithmetic on [Q] is the one on real
    (finite) values. *)
Class PyNum (F : Type) := {
  f_ofZ : Z -> F;            (* int -> float, as in [days * 45 + miles * 0.4] *)
  f_lit : Q -> F;            (* a float literal *)
  f_add : F -> F -> F;
  f_sub : F -> F -> F;
  f_mul : F -> F -> F;
  f_lt : F -> F -> bool;     (* [<] of floats; [>] is [f_lt] flipped *)
  f_le : F -> F -> bool
}.

Definition Qltb (a b : Q) : bool := negb (Qle_bool b a).

#[export] Instance PyNum_Q : PyNum Q := {
  f_ofZ := inject_Z;
  f_lit := fun q => q;
  f_add := Qplus;
  f_sub := Qminus;
  f_mul := Qmult;
  f_lt := Qltb;
  f_le := Qle_bool
}.

Definition fneg (x : flt) : flt :=
  match x with
  | Fin q => Fin (- q)
  | PInf => NInf
  | NInf => PInf
  | NaN => NaN
  end.

Definition fadd (x y : flt) : flt :=
  match x, y with
  | NaN, _ | _, NaN => NaN
  | PInf, NInf | NInf, PInf => NaN
  | PInf, _ | _, PInf => PInf
  | NInf, _ | _, NInf => NInf
  | Fin a, Fin b => Fin (a + b)
  end.

Definition fsub (x y : flt) : flt := fadd x (fneg y).

(** Sign of a float that is not nan: -1, 0 or 1. *)
Definition fsign (x : flt) : Z :=
  match x with
  | Fin q => match Qnum q with Z0 => 0 | Zpos _ => 1 | Zneg _ => -1 end
  | PInf => 1
  | NInf => -1
  | NaN => 0
  end.

Definition inf_of_sign (s : Z) : flt :=
  match s with Z0 => NaN | Zpos _ => PInf | Zneg _ => NInf end.

Definition fmul (x y : flt) : flt :=
  match x, y with
  | NaN, _ | _, NaN => NaN
  | Fin a, Fin b => Fin (a * b)
  | _, _ => inf_of_sign (fsign x * fsign y)%Z   (* inf * 0 is nan *)
  end.

(** Comparisons are false as soon as one side is nan. *)
Definition flt_lt (x y : flt) : bool :=
  match x, y with
  | NaN, _ | _, NaN => false
  | Fin a, Fin b => Qltb a b
  | NInf, NInf | PInf, PInf => false
  | NInf, _ => true
  | _, PInf => true
  | _, _ => false
  end.

Definition flt_le (x y : flt) : bool :=
  match x, y with
  | NaN, _ | _, NaN => false
  | Fin a, Fin b => Qle_bool a b
  | NInf, _ => true
  | _, PInf => true
  | _, _ => false
  end.

(** [f_ofZ] gives the value of an int converted to float; whether the
    conversion raises [OverflowError] is decided where it happens: in
    [py_float], and in the [try] block of [calculate_reimbursement] from
    [reimbursement_conversions]. *)
#[export] Instance PyNum_flt : PyNum flt := {
  f_ofZ := fun z => Fin (inject_Z z);
  f_lit := Fin;
  f_add := fadd;
  f_sub := fsub;
  f_mul := fmul;
  f_lt := flt_lt;
  f_le := flt_le
}.

(** ** The module's functions *)

Section Core.
Context {F : Type} `{PyNum F}.

Local Infix "+." := f_add (at level 50, left associativity).
Local Infix "-." := f_sub (at level 50, left associativity).
Local Infix "*." := f_mul (at level 40, left associativity).
Local Notation "x >. y" := (f_lt y x) (at level 70).
Local Notation "x <=. y" := (f_le x y) (at level 70).
Local Notation "'int' z" := (f_ofZ z) (at level 9).
Local Notation "'lit' q" := (f_lit q) (at level 9).

(** [detect_outlier_case].  The source also computes [receipts_per_day]
    and [miles_per_day]; neither is read afterwards.  The division
    converts [days] to float, which can raise; [reimbursement_conversions]
    below records it. *)
Definition detect_outlier_case (days : Z) (miles receipts : F) : string :=
  if (receipts >. int 2000) && (days <=? 4)%Z && (miles <=. int 100) then
    "gaming_detection"
  else if (receipts >. int 2300) && (days <=? 5)%Z && (miles <=. int 100) then
    "heavy_cap"
  else if (days =? 1)%Z && (miles >. int 1000) && (receipts >. int 1800) then
    "abuse_detection"
  else "normal".

(** [calculate_receipt_component] *)
Definition calculate_receipt_component (total_receipts_amount : F) : F :=
  let t := total_receipts_amount in
  if t >. int 1000 then
    let base := int 1000 *. lit 0.998 in
    let excess := (t -. int 1000) *. lit 0.3 in
    base +. excess
  else if t >. int 500 then
    let base := int 500 *. lit 1.610 in
    let excess := (t -. int 500) *. lit 0.998 in
    base +. excess
  else if t >. int 200 then
    let base := int 200 *. lit 2.258 in
    let excess := (t -. int 200) *. lit 1.610 in
    base +. excess
  else if t >. int 50 then
    let base := int 50 *. lit 3.610 in
    let excess := (t -. int 50) *. lit 2.258 in
    base +. excess
  else t *. lit 3.610.

(** [calculate_outlier_reimbursement].  [days * 45] is an int product;
    adding the float [miles * 0.4] converts it.  Python's
    [min(receipts, days * 250)] keeps its first argument unless the
    second one is smaller. *)
Definition calculate_outlier_reimbursement (days : Z) (miles receipts : F)
    (outlier_type : string) : F :=
  if String.eqb outlier_type "heavy_cap" then
    let base_reimbursement := int (days * 45) +. miles *. lit 0.4 in
    let receipt_component := receipts *. lit 0.15 in
    base_reimbursement +. receipt_component
  else if String.eqb outlier_type "abuse_detection" then
    let base_reimbursement := int (days * 40) +. miles *. lit 0.35 in
    let receipt_component := receipts *. lit 0.12 in
    base_reimbursement +. receipt_component
  else if String.eqb outlier_type "spending_cap" then
    let base_reimbursement := int (days * 50) +. miles *. lit 0.45 in
    let capped_receipts :=
      if receipts >. int (days * 250) then int (days * 250) else receipts in
    let receipt_component := capped_receipts *. lit 0.2 in
    base_reimbursement +. receipt_component
  else if String.eqb outlier_type "gaming_detection" then
    let base_reimbursement := int (days * 35) +. miles *. lit 0.3 in
    let receipt_component := receipts *. lit 0.08 in
    base_reimbursement +. receipt_component
  else
    int (days * 50) +. miles *. lit 0.5 +. receipts *. lit 0.1.

(** The body of the [try] block of [calculate_reimbursement] after the
    validation, up to the final [round]: the value of [total]. *)
Definition reimbursement_total (days : Z) (miles receipts : F) : F :=
  let outlier_type := detect_outlier_case days miles receipts in
  if negb (String.eqb outlier_type "normal") then
    calculate_outlier_reimbursement days miles receipts outlier_type
  else if receipts >. int 800 then
    let base_amount := 100%Z in
    let duration_component := (days * 20)%Z in
    let mileage_component := miles *. lit 0.3 in
    let receipt_component := calculate_receipt_component receipts in
    int (base_amount + duration_component) +. mileage_component +. receipt_component
  else if receipts >. int 200 then
    let base_amount := 50%Z in
    let duration_component := (days * 35)%Z in
    let mileage_component := miles *. lit 0.4 in
    let receipt_component := receipts *. lit 0.8 in
    int (base_amount + duration_component) +. mileage_component +. receipt_component
  else
    let duration_component := (days * 50)%Z in
    let mileage_component := miles *. lit 0.5 in
    let receipt_component := receipts *. lit 0.1 in
    int duration_component +. mileage_component +. receipt_component.

(** The ints that [calculate_outlier_reimbursement] converts to float:
    [days * k] added to a float, and in [spending_cap] the int that
    [min(receipts, days * 250)] returns when it is the smaller one
    (an int compared with a float is compared exactly, with no
    conversion). *)
Definition outlier_conversions (days : Z) (receipts : F) (outlier_type : string) : list Z :=
  if String.eqb outlier_type "heavy_cap" then [(days * 45)%Z]
  else if String.eqb outlier_type "abuse_detection" then [(days * 40)%Z]
  else if String.eqb outlier_type "spending_cap" then
    (days * 50)%Z :: (if receipts >. int (days * 250) then [(days * 250)%Z] else [])
  else if String.eqb outlier_type "gaming_detection" then [(days * 35)%Z]
  else [(days * 50)%Z].

(** The ints that the body of the [try] block converts to float, in the
    order of evaluation: [days] in [receipts / days] and [miles / days]
    (lines 22-23), then the int part of the sum of the branch taken. *)
Definition reimbursement_conversions (days : Z) (miles receipts : F) : list Z :=
  let outlier_type := detect_outlier_case days miles receipts in
  [days; days] ++
  (if negb (String.eqb outlier_type "normal") then
     outlier_conversions days receipts outlier_type
   else if receipts >. int 800 then [(100 + days * 20)%Z]
   else if receipts >. int 200 then [(50 + days * 35)%Z]
   else [(days * 50)%Z]).

End Core.

(** ** [round(total, 2)]

    On a finite value, Python's [round(x, 2)] rounds the exact value of [x]
    to the nearest multiple of 0.01, ties to even; inf and nan are
    returned unchanged. *)
Definition round2Q (q : Q) : Q :=
  let n := q * 100 in
  let fl := Qfloor n in
  let fr := n - inject_Z fl in
  let z :=
    if Qltb fr (1#2) then fl
    else if Qltb (1#2) fr then (fl + 1)%Z
    else if Z.even fl then fl else (fl + 1)%Z in
  z # 100.

Definition py_round2 (x : flt) : flt :=
  match x with
  | Fin q => Fin (round2Q q)
  | other => other
  end.

(** ** Coercion of the raw arguments: [int(...)] and [float(...)] *)

Inductive exn : Type :=
| ValueError
| TypeError
| OverflowError.

(** A raw argument: an int (also a bool), a float, a string (what the
    command line passes), or any other object (None, a list, ...). *)
Inductive pyval : Type :=
| VInt (z : Z)
| VFloat (f : flt)
| VStr (s : string)
| VOther.

(** The outcome of a call: a returned float or an exception that escapes. *)
Inductive outcome : Type :=
| Returns (v : flt)
| Raises (e : exn).

(** CPython converts an int to float by rounding it to 53 bits, ties to
    even; the conversion raises [OverflowError] when the result would be
    2^1024 or more, that is from 2^1024 - 2^970 on. *)
Definition float_int_bound : Z := (2 ^ 1024 - 2 ^ 970)%Z.

Definition int_fits_float (z : Z) : bool := (Z.abs z <? float_int_bound)%Z.

Section TopLevel.

(** CPython's parsing of a string by [int(s)] and [float(s)]: [None] is a
    string it rejects, with [ValueError]. *)
Variable py_int_of_str : string -> option Z.
Variable py_float_of_str : string -> option flt.

(** [int(x)]: a finite float is truncated toward zero; [int(inf)] raises
    [OverflowError] and [int(nan)] raises [ValueError]. *)
Definition py_int (x : pyval) : exn + Z :=
  match x with
  | VInt z => inr z
  | VFloat (Fin q) => inr (Z.quot (Qnum q) (Zpos (Qden q)))
  | VFloat PInf | VFloat NInf => inl OverflowError
  | VFloat NaN => inl ValueError
  | VStr s => match py_int_of_str s with Some z => inr z | None => inl ValueError end
  | VOther => inl TypeError
  end.

(** [float(x)]: an int beyond the float range raises [OverflowError]. *)
Definition py_float (x : pyval) : exn + flt :=
  match x with
  | VInt z => if int_fits_float z then inr (Fin (inject_Z z)) else inl OverflowError
  | VFloat f => inr f
  | VStr s => match py_float_of_str s with Some f => inr f | None => inl ValueError end
  | VOther => inl TypeError
  end.

(** The [try] block: conversions, validation, computation and rounding. *)
Definition reimbursement_try (trip_duration_days miles_traveled total_receipts_amount : pyval)
    : exn + flt :=
  match py_int trip_duration_days with
  | inl e => inl e
  | inr days =>
    match py_float miles_traveled with
    | inl e => inl e
    | inr miles =>
      match py_float total_receipts_amount with
      | inl e => inl e
      | inr receipts =>
        if (days <=? 0)%Z || flt_lt miles (f_ofZ 0) || flt_lt receipts (f_ofZ 0) then
          inl ValueError   (* raise ValueError("Invalid input values") *)
        else if forallb int_fits_float (reimbursement_conversions days miles receipts) then
          inr (py_round2 (reimbursement_total days miles receipts))
        else inl OverflowError   (* int too large to convert to float *)
      end
    end
  end.

(** [calculate_reimbursement]: [except (ValueError, TypeError)] prints the
    error (not modelled) and returns [0.0]; any other exception escapes. *)
Definition calculate_reimbursement (trip_duration_days miles_traveled total_receipts_amount : pyval)
    : outcome :=
  match reimbursement_try trip_duration_days miles_traveled total_receipts_amount with
  | inr v => Returns v
  | inl ValueError | inl TypeError => Returns (Fin 0)
  | inl e => Raises e
  end.

End TopLevel.

(** ** A decimal-literal parser

    A subset of CPython's string parsing, enough for the command line's
    plain decimal arguments: an optional sign, digits, and for [float] an
    optional fraction.  (CPython also accepts surrounding whitespace,
    underscores, exponents, inf and nan.) *)

Fixpoint digits_acc (s : string) (acc : Z) (k : nat) : option (Z * nat) :=
  match s with
  | EmptyString => Some (acc, k)
  | String c rest =>
    let n := Ascii.nat_of_ascii c in
    if (48 <=? n)%nat && (n <=? 57)%nat then
      digits_acc rest (acc * 10 + Z.of_nat (n - 48))%Z (S k)
    else None
  end.

Definition split_sign (s : string) : Z * string :=
  match s with
  | String "-"%char rest => ((-1)%Z, rest)
  | String "+"%char rest => (1%Z, rest)
  | _ => (1%Z, s)
  end.

Definition dec_int_of_str (s : string) : option Z :=
  let (sg, body) := split_sign s in
  match digits_acc body 0 0 with
  | Some (v, S _) => Some (sg * v)%Z
  | _ => None
  end.

(** Split at the first '.'. *)
Fixpoint split_dot (s : string) : string * option string :=
  match s with
  | EmptyString => (EmptyString, None)
  | String "."%char rest => (EmptyString, Some rest)
  | String c rest => let (a, b) := split_dot rest in (String c a, b)
  end.

Definition dec_float_of_str (s : string) : option flt :=
  let (sg, body) := split_sign s in
  let (ip, fp) := split_dot body in
  match digits_acc ip 0 0 with
  | None => None
  | Some (iv, ik) =>
    match fp with
    | None => if Nat.eqb ik 0 then None else Some (Fin (inject_Z (sg * iv)))
    | Some f =>
      match digits_acc f 0 0 with
      | Some (fv, fk) =>
        if Nat.eqb (ik + fk) 0 then None
        else Some (Fin (inject_Z sg * (inject_Z iv + (fv # Pos.of_nat (10 ^ fk)))))
      | None => None
      end
    end
  end.

(** The command-line entry with this parser. *)
Definition calculate_reimbursement_dec := calculate_reimbursement dec_int_of_str dec_float_of_str.

(** Continuity of a function on real (finite) values at a point, and
    continuity from above. *)
Definition continuous_at (f : Q -> Q) (b : Q) : Prop :=
  forall eps, 0 < eps ->
  exists delta, 0 < delta /\ forall r, Qabs (r - b) < delta -> Qabs (f r - f b) < eps.

Definition right_continuous_at (f : Q -> Q) (b : Q) : Prop :=
  forall eps, 0 < eps ->
  exists delta, 0 < delta /\ forall r, b < r -> r < b + delta -> Qabs (f r - f b) < eps.

(** ** The command line: [if __name__ == "__main__"]

    Every [print] of the module writes one line to standard output.  The
    lines are modelled by what they show: the usage message, an
    ["Error: ..."] line (the message text is not modelled), or a printed
    float. *)
Inductive out_line : Type :=
| OutUsage
| OutError
| OutValue (v : flt).

Section CommandLine.
Variable py_int_of_str : string -> option Z.
Variable py_float_of_str : string -> option flt.

(** [calculate_reimbursement] with what it prints: the [except] clause
    prints the error before returning [0.0]. *)
Definition calculate_reimbursement_io (trip_duration_days miles_traveled total_receipts_amount : pyval)
    : list out_line * outcome :=
  match reimbursement_try py_int_of_str py_float_of_str
          trip_duration_days miles_traveled total_receipts_amount with
  | inr v => ([], Returns v)
  | inl ValueError | inl TypeError => ([OutError], Returns (Fin 0))
  | inl e => ([], Raises e)
  end.

(** The script body, on [sys.argv] (the script name first): the lines
    printed and the exit status. *)
Definition cli_main (argv : list string) : list out_line * Z :=
  if negb (Nat.eqb (length argv) 4) then ([OutUsage], 1%Z)   (* print usage; sys.exit(1) *)
  else
    match argv with
    | [_; days; miles; receipts] =>
      let '(printed, res) :=
        calculate_reimbursement_io (VStr days) (VStr miles) (VStr receipts) in
      match res with
      | Returns result => (printed ++ [OutValue result], 0%Z)   (* print(result) *)
      | Raises _ => (printed ++ [OutError], 1%Z)            (* except Exception *)
      end
    | _ => ([OutUsage], 1%Z)
    end.

End CommandLine.

(** ** Facts about the model *)

Lemma Qltb_true (a b : Q) : a < b -> Qltb a b = true.
Proof.
  intro Hab. unfold Qltb. apply negb_true_iff.
  destruct (Qle_bool b a) eqn:E; [|reflexivity].
  apply Qle_bool_iff in E. exfalso. apply (Qlt_not_le a b); assumption.
Qed.

Lemma Qltb_false (a b : Q) : b <= a -> Qltb a b = false.
Proof.
  intro Hba. unfold Qltb. apply negb_false_iff. apply Qle_bool_iff. exact Hba.
Qed.

Lemma Qltb_iff (a b : Q) : Qltb a b = true <-> a < b.
Proof.
  split; [|apply Qltb_true].
  intro E. destruct (Qlt_le_dec a b) as [Hlt|Hle]; [exact Hlt|].
  rewrite (Qltb_false a b Hle) in E. discriminate.
Qed.

Lemma Qle_bool_false (a b : Q) : b < a -> Qle_bool a b = false.
Proof.
  intro Hba. destruct (Qle_bool a b) eqn:E; [|reflexivity].
  apply Qle_bool_iff in E. exfalso. apply (Qlt_not_le b a); assumption.
Qed.

(** Settles the comparisons of a goal from the hypotheses, by [lra]. *)
Ltac settle_cmp :=
  repeat match goal with
  | |- context [Qltb ?a ?b] =>
      first [ rewrite (Qltb_true a b) by (unfold inject_Z in *; lra)
            | rewrite (Qltb_false a b) by (unfold inject_Z in *; lra) ]
  | |- context [Qle_bool ?a ?b] =>
      first [ rewrite (proj2 (Qle_bool_iff a b)) by (unfold inject_Z in *; lra)
            | rewrite (Qle_bool_false a b) by (unfold inject_Z in *; lra) ]
  end.

Ltac split_ifs :=
  repeat match goal with
  | |- context [if ?b then _ else _] => destruct b
  end.

(** On finite values the float instance computes what the [Q] instance
    computes. *)
Lemma detect_outlier_case_fin (d : Z) (m r : Q) :
  detect_outlier_case d (Fin m) (Fin r) = detect_outlier_case d m r.
Proof. reflexivity. Qed.

Lemma reimbursement_total_fin (d : Z) (m r : Q) :
  reimbursement_total d (Fin m) (Fin r) = Fin (reimbursement_total d m r).
Proof.
  unfold reimbursement_total.
  change (detect_outlier_case d (Fin m) (Fin r)) with (detect_outlier_case d m r).
  generalize (detect_outlier_case d m r) as t; intro t.
  unfold calculate_outlier_reimbursement, calculate_receipt_component.
  cbn [f_ofZ f_lit f_add f_sub f_mul f_lt f_le PyNum_flt PyNum_Q
       fadd fsub fneg fmul flt_lt flt_le].
  split_ifs; reflexivity.
Qed.

(** The receipt component of a finite receipt total, band by band. *)
Section ReceiptBands.
Variable r : Q.

Lemma receipt_component_band1 : r <= 50 ->
  calculate_receipt_component r == r * 3.610.
Proof.
  intro B. unfold calculate_receipt_component; cbn [f_ofZ f_lit f_add f_sub f_mul f_lt PyNum_Q].
  settle_cmp. reflexivity.
Qed.

Lemma receipt_component_band2 : 50 < r <= 200 ->
  calculate_receipt_component r == 50 * 3.610 + (r - 50) * 2.258.
Proof.
  intro B. unfold calculate_receipt_component; cbn [f_ofZ f_lit f_add f_sub f_mul f_lt PyNum_Q].
  settle_cmp. unfold inject_Z. lra.
Qed.

Lemma receipt_component_band3 : 200 < r <= 500 ->
  calculate_receipt_component r == 200 * 2.258 + (r - 200) * 1.610.
Proof.
  intro B. unfold calculate_receipt_component; cbn [f_ofZ f_lit f_add f_sub f_mul f_lt PyNum_Q].
  settle_cmp. unfold inject_Z. lra.
Qed.

Lemma receipt_component_band4 : 500 < r <= 1000 ->
  calculate_receipt_component r == 500 * 1.610 + (r - 500) * 0.998.
Proof.
  intro B. unfold calculate_receipt_component; cbn [f_ofZ f_lit f_add f_sub f_mul f_lt PyNum_Q].
  settle_cmp. unfold inject_Z. lra.
Qed.

Lemma receipt_component_band5 : 1000 < r ->
  calculate_receipt_component r == 1000 * 0.998 + (r - 1000) * 0.3.
Proof.
  intro B. unfold calculate_receipt_component; cbn [f_ofZ f_lit f_add f_sub f_mul f_lt PyNum_Q].
  settle_cmp. unfold inject_Z. lra.
Qed.

End ReceiptBands.

(** [round2Q] depends only on the value of its argument. *)
Lemma Qfloor_Qeq (a b : Q) : a == b -> Qfloor a = Qfloor b.
Proof.
  intro E. apply Z.le_antisymm; apply Qfloor_resp_le; rewrite E; apply Qle_refl.
Qed.

Lemma Qle_bool_Qeq (a a' b b' : Q) : a == a' -> b == b' -> Qle_bool a b = Qle_bool a' b'.
Proof.
  intros Ea Eb. destruct (Qle_bool a' b') eqn:E.
  - apply Qle_bool_iff. apply Qle_bool_iff in E. rewrite Ea, Eb. exact E.
  - destruct (Qle_bool a b) eqn:E'; [|reflexivity].
    apply Qle_bool_iff in E'. rewrite Ea, Eb in E'.
    apply Qle_bool_iff in E'. congruence.
Qed.

Lemma round2Q_Qeq (a b : Q) : a == b -> round2Q a = round2Q b.
Proof.
  intro E. unfold round2Q, Qltb.
  assert (Ef : Qfloor (a * 100) = Qfloor (b * 100)) by (apply Qfloor_Qeq; rewrite E; reflexivity).
  rewrite Ef.
  assert (Efr : a * 100 - inject_Z (Qfloor (b * 100)) == b * 100 - inject_Z (Qfloor (b * 100)))
    by (rewrite E; reflexivity).
  rewrite (Qle_bool_Qeq (1#2) (1#2) _ _ (Qeq_refl _) Efr).
  rewrite (Qle_bool_Qeq _ _ (1#2) (1#2) Efr (Qeq_refl _)).
  reflexivity.
Qed.

Lemma Qmake_100 (z : Z) : (z # 100) == inject_Z z * (1 # 100).
Proof. unfold Qeq; simpl; lia. Qed.

(** [round2Q q] is a whole number of cents, within half a cent of [q]. *)
Lemma round2Q_spec (q : Q) :
  exists z : Z, round2Q q = z # 100 /\
    - (1 # 2) <= inject_Z z - q * 100 <= 1 # 2.
Proof.
  unfold round2Q.
  set (n := q * 100).
  pose proof (Qfloor_le n) as L. pose proof (Qlt_floor n) as U.
  rewrite inject_Z_plus in U. change (inject_Z 1) with 1 in U.
  set (fl := Qfloor n) in *.
  destruct (Qltb (n - inject_Z fl) (1 # 2)) eqn:E1.
  - apply Qltb_iff in E1. exists fl. split; [reflexivity|]. split; lra.
  - destruct (Qltb (1 # 2) (n - inject_Z fl)) eqn:E2.
    + apply Qltb_iff in E2. exists (fl + 1)%Z. split; [reflexivity|].
      rewrite inject_Z_plus. change (inject_Z 1) with 1. split; lra.
    + assert (H1 : ~ n - inject_Z fl < 1 # 2) by (intro X; apply Qltb_iff in X; congruence).
      assert (H2 : ~ 1 # 2 < n - inject_Z fl) by (intro X; apply Qltb_iff in X; congruence).
      apply Qnot_lt_le in H1. apply Qnot_lt_le in H2.
      destruct (Z.even fl).
      * exists fl. split; [reflexivity|]. split; lra.
      * exists (fl + 1)%Z. split; [reflexivity|].
        rewrite inject_Z_plus. change (inject_Z 1) with 1. split; lra.
Qed.

Lemma round2Q_nonneg (q : Q) : 0 <= q -> 0 <= round2Q q.
Proof.
  intro Hq. destruct (round2Q_spec q) as [z [-> [L U]]].
  rewrite Qmake_100.
  assert (Hz : (0 <= z)%Z).
  { assert (Hz' : -1 < inject_Z z) by lra.
    change (-1) with (inject_Z (-1)) in Hz'. rewrite <- Zlt_Qlt in Hz'. lia. }
  assert (0 <= inject_Z z) by (change 0 with (inject_Z 0); rewrite <- Zle_Qle; exact Hz).
  lra.
Qed.

(** Turns a decided comparison into its proposition. *)
Ltac cmp_facts :=
  repeat match goal with
  | E : Qltb _ _ = true |- _ => apply Qltb_iff in E
  | E : Qltb ?a ?b = false |- _ =>
      let X := fresh in
      assert (X : b <= a) by (apply Qnot_lt_le; intro X; apply Qltb_iff in X; congruence);
      clear E
  | E : Qle_bool _ _ = true |- _ => apply Qle_bool_iff in E
  | E : Qle_bool ?a ?b = false |- _ =>
      let X := fresh in
      assert (X : b < a) by (apply Qnot_le_lt; intro X; apply Qle_bool_iff in X; congruence);
      clear E
  | E : (_ <=? _)%Z = true |- _ => apply Z.leb_le in E
  | E : (_ <=? _)%Z = false |- _ => apply Z.leb_gt in E
  | E : (_ =? _)%Z = true |- _ => apply Z.eqb_eq in E
  | E : (_ =? _)%Z = false |- _ => apply Z.eqb_neq in E
  end.

(** Writes the int literals converted to float as rationals. *)
Ltac lit_Z :=
  repeat match goal with
  | |- context [inject_Z (Zpos ?p)] => change (inject_Z (Zpos p)) with (Zpos p # 1)
  | H : context [inject_Z (Zpos ?p)] |- _ => change (inject_Z (Zpos p)) with (Zpos p # 1) in H
  end.

(** ** The claims *)

(** C1: on days=4, miles=69, receipts=2321 (the trip that the comment of
    the [heavy_cap] rule names) the classifier answers [gaming_detection],
    and [calculate_reimbursement] returns 4*35 + 69*0.3 + 2321*0.08 =
    346.38; the [heavy_cap] formula alone would give 555.75. *)
Theorem case_4_69_2321_gaming_detection :
  forall (pi : string -> option Z) (pf : string -> option flt),
  detect_outlier_case (F:=Q) 4 69 2321 = "gaming_detection"%string /\
  calculate_outlier_reimbursement (F:=Q) 4 69 2321 "heavy_cap" == 555.75 /\
  calculate_reimbursement pi pf (VInt 4) (VInt 69) (VInt 2321) = Returns (Fin 346.38).
Proof.
  intros pi pf. split; [reflexivity|]. split; [reflexivity|].
  vm_compute. reflexivity.
Qed.

(** C3: whenever both the [gaming_detection] rule and the [heavy_cap]
    rule match (for any float values, inf and nan included), the
    classifier answers [gaming_detection], the rule checked first. *)
Theorem gaming_detection_precedes_heavy_cap {F : Type} `{PyNum F}
    (days : Z) (miles receipts : F) :
  f_lt (f_ofZ 2000) receipts = true -> (days <= 4)%Z -> f_le miles (f_ofZ 100) = true ->
  f_lt (f_ofZ 2300) receipts = true -> (days <= 5)%Z ->
  detect_outlier_case days miles receipts = "gaming_detection"%string.
Proof.
  intros G1 G2 G3 _ _. unfold detect_outlier_case.
  rewrite G1, G3. apply Z.leb_le in G2. rewrite G2. reflexivity.
Qed.

(** C5: each outlier formula is the plain linear combination of its
    coefficient table, with no rounding. *)
Theorem outlier_reimbursement_formulas (days : Z) (miles receipts : Q) :
  calculate_outlier_reimbursement days miles receipts "heavy_cap"
    == inject_Z days * 45 + miles * 0.4 + receipts * 0.15 /\
  calculate_outlier_reimbursement days miles receipts "abuse_detection"
    == inject_Z days * 40 + miles * 0.35 + receipts * 0.12 /\
  calculate_outlier_reimbursement days miles receipts "gaming_detection"
    == inject_Z days * 35 + miles * 0.3 + receipts * 0.08 /\
  calculate_outlier_reimbursement days miles receipts "spending_cap"
    == inject_Z days * 50 + miles * 0.45 + Qmin receipts (inject_Z days * 250) * 0.2.
Proof.
  unfold calculate_outlier_reimbursement; cbn [f_ofZ f_lit f_add f_sub f_mul f_lt PyNum_Q].
  cbn [String.eqb Ascii.eqb Bool.eqb].
  rewrite !inject_Z_mult.
  lit_Z. repeat split; try ring.
  destruct (Qltb (inject_Z days * 250) receipts) eqn:E; cmp_facts.
  - assert (M : Qmin receipts (inject_Z days * 250) == inject_Z days * 250)
      by (apply Q.min_r; lra).
    rewrite M. ring.
  - assert (M : Qmin receipts (inject_Z days * 250) == receipts)
      by (apply Q.min_l; lra).
    rewrite M. ring.
Qed.

(** C8: the classifier only ever answers one of four tags, so the
    [spending_cap] branch and the fallback branch of
    [calculate_outlier_reimbursement] are never taken from
    [reimbursement_total]. *)
Theorem detect_outlier_case_four_tags {F : Type} `{PyNum F}
    (days : Z) (miles receipts : F) :
  let t := detect_outlier_case days miles receipts in
  (t = "normal" \/ t = "gaming_detection" \/ t = "heavy_cap" \/ t = "abuse_detection")%string /\
  t <> "spending_cap"%string /\
  (t <> "normal"%string ->
   String.eqb t "heavy_cap" || String.eqb t "abuse_detection"
   || String.eqb t "gaming_detection" = true).
Proof.
  cbv zeta. unfold detect_outlier_case.
  split_ifs; repeat split; try discriminate; auto 6.
Qed.

(** C9: on valid finite inputs the classifier answers [heavy_cap] exactly
    for 5-day trips with receipts above 2300 and at most 100 miles. *)
Theorem heavy_cap_iff_five_days (days : Z) (miles receipts : Q) :
  (0 < days)%Z -> 0 <= miles -> 0 <= receipts ->
  detect_outlier_case days miles receipts = "heavy_cap"%string <->
  days = 5%Z /\ 2300 < receipts /\ miles <= 100.
Proof.
  intros Hd Hm Hr. unfold detect_outlier_case.
  cbn [f_ofZ f_lt f_le PyNum_Q].
  destruct (Qltb (inject_Z 2000) receipts) eqn:E1,
           (days <=? 4)%Z eqn:E2, (Qle_bool miles (inject_Z 100)) eqn:E3,
           (Qltb (inject_Z 2300) receipts) eqn:E4, (days <=? 5)%Z eqn:E5;
    cbn [andb]; cmp_facts; unfold inject_Z in *;
    (split; [intro X|intros (X1 & X2 & X3)]);
    try (revert X; split_ifs; intro X; discriminate X);
    try (exfalso; lia); try (exfalso; lra);
    try (repeat split; first [lia | lra]).
Qed.

(** C2, as stated: right-continuity fails at 200.  Just above 200 the
    component is at most 453.21, while at 200 it is 519.20. *)
Lemma receipt_component_jump_at_200 :
  ~ right_continuous_at (calculate_receipt_component (F:=Q)) 200.
Proof.
  intro Hc. destruct (Hc 1) as [d [Hd Hr]]; [lra|].
  assert (V200 : calculate_receipt_component (F:=Q) 200 == 519.2) by reflexivity.
  destruct (Qlt_le_dec d 1) as [Hd1|Hd1].
  - specialize (Hr (200 + d * (1#2))).
    assert (B : calculate_receipt_component (F:=Q) (200 + d * (1#2))
                == 200 * 2.258 + (200 + d * (1#2) - 200) * 1.610)
      by (apply receipt_component_band3; split; lra).
    assert (A : Qabs (calculate_receipt_component (F:=Q) (200 + d * (1#2))
                      - calculate_receipt_component (F:=Q) 200) < 1) by (apply Hr; lra).
    rewrite B, V200 in A.
    pose proof (Qle_Qabs (- (200 * 2.258 + (200 + d * (1#2) - 200) * 1.610 - 519.2))) as L.
    rewrite Qabs_opp in L. lra.
  - specialize (Hr (200 + (1#2))).
    assert (A : Qabs (calculate_receipt_component (F:=Q) (200 + (1#2))
                      - calculate_receipt_component (F:=Q) 200) < 1) by (apply Hr; lra).
    assert (W : calculate_receipt_component (F:=Q) (200 + (1#2)) == 452.405) by reflexivity.
    rewrite W, V200 in A.
    pose proof (Qle_Qabs (- (452.405 - 519.2))) as L.
    rewrite Qabs_opp in L. lra.
Qed.

(** C2, amended: the component is continuous at 50, where both branch
    formulas give 180.50; at 200, 500 and 1000 the band above starts at
    451.60, 805.00 and 998.00 while the value at the boundary is 519.20,
    934.60 and 1304.00, a drop. *)
Theorem receipt_component_boundaries :
  continuous_at (calculate_receipt_component (F:=Q)) 50 /\
  calculate_receipt_component (F:=Q) 50 == 180.5 /\
  (forall r, 50 < r <= 200 -> calculate_receipt_component r == 180.5 + (r - 50) * 2.258) /\
  calculate_receipt_component (F:=Q) 200 == 519.2 /\
  (forall r, 200 < r <= 500 -> calculate_receipt_component r == 451.6 + (r - 200) * 1.610) /\
  calculate_receipt_component (F:=Q) 500 == 934.6 /\
  (forall r, 500 < r <= 1000 -> calculate_receipt_component r == 805 + (r - 500) * 0.998) /\
  calculate_receipt_component (F:=Q) 1000 == 1304 /\
  (forall r, 1000 < r -> calculate_receipt_component r == 998 + (r - 1000) * 0.3).
Proof.
  split.
  { intros eps He.
    assert (V50 : calculate_receipt_component (F:=Q) 50 == 180.5) by reflexivity.
    destruct (Qlt_le_dec eps 1) as [He1|He1];
      [exists (eps * (1#4)) | exists (1#4)]; (split; [lra|]);
      intros r Hr; apply Qabs_Qlt_condition in Hr; apply Qabs_Qlt_condition; rewrite V50;
      (destruct (Qlt_le_dec 50 r) as [Hr50|Hr50];
       [rewrite (receipt_component_band2 r) by (split; lra) | rewrite (receipt_component_band1 r) by lra]);
      lra. }
  split; [reflexivity|].
  split; [intros r Hr; rewrite (receipt_component_band2 r Hr); lra|].
  split; [reflexivity|].
  split; [intros r Hr; rewrite (receipt_component_band3 r Hr); lra|].
  split; [reflexivity|].
  split; [intros r Hr; rewrite (receipt_component_band4 r Hr); lra|].
  split; [reflexivity|].
  intros r Hr; rewrite (receipt_component_band5 r Hr); lra.
Qed.

(** Up to 10^300 days, every int that the body converts to float is in
    range (the largest is at most 250 * days + 100). *)
Lemma conversions_fit {F : Type} `{PyNum F} (days : Z) (miles receipts : F) :
  (0 < days <= 10 ^ 300)%Z ->
  forallb int_fits_float (reimbursement_conversions days miles receipts) = true.
Proof.
  intro Hd.
  assert (B : (250 * 10 ^ 300 + 100 < float_int_bound)%Z) by (vm_compute; reflexivity).
  set (M := (10 ^ 300)%Z) in *. set (Bd := float_int_bound) in *.
  assert (Fit : forall z, (0 <= z <= 250 * M + 100)%Z -> int_fits_float z = true).
  { intros z Hz. unfold int_fits_float. change float_int_bound with Bd.
    apply Z.ltb_lt. rewrite Z.abs_eq by lia. lia. }
  unfold reimbursement_conversions, outlier_conversions.
  repeat match goal with |- context [if ?c then _ else _] => destruct c end;
    cbn [forallb andb app]; rewrite ?Fit by lia; reflexivity.
Qed.

(** A call whose arguments convert to valid finite values, with at most
    10^300 days, returns the rounded total. *)
Lemma calculate_reimbursement_valid pi pf (d m r : pyval) (days : Z) (miles receipts : Q) :
  py_int pi d = inr days -> py_float pf m = inr (Fin miles) -> py_float pf r = inr (Fin receipts) ->
  (0 < days)%Z -> (days <= 10 ^ 300)%Z -> 0 <= miles -> 0 <= receipts ->
  calculate_reimbursement pi pf d m r
  = Returns (Fin (round2Q (reimbursement_total days miles receipts))).
Proof.
  intros Ed Em Er Hd Hmax Hm Hr. unfold calculate_reimbursement, reimbursement_try.
  rewrite Ed, Em, Er.
  assert (Z0 : (days <=? 0)%Z = false) by (apply Z.leb_gt; lia).
  rewrite Z0. cbn [f_ofZ PyNum_flt flt_lt orb]. settle_cmp. cbn [orb].
  rewrite (conversions_fit days (Fin miles) (Fin receipts)) by lia.
  rewrite reimbursement_total_fin. reflexivity.
Qed.

Lemma receipt_component_nonneg (r : Q) : 0 <= r -> 0 <= calculate_receipt_component r.
Proof.
  intro Hr.
  destruct (Qlt_le_dec 1000 r) as [B5|B5];
    [rewrite (receipt_component_band5 r B5); lra|].
  destruct (Qlt_le_dec 500 r) as [B4|B4];
    [rewrite (receipt_component_band4 r (conj B4 B5)); lra|].
  destruct (Qlt_le_dec 200 r) as [B3|B3];
    [rewrite (receipt_component_band3 r (conj B3 B4)); lra|].
  destruct (Qlt_le_dec 50 r) as [B2|B2];
    [rewrite (receipt_component_band2 r (conj B2 B3)); lra|].
  rewrite (receipt_component_band1 r B2); lra.
Qed.

Lemma reimbursement_total_nonneg (days : Z) (miles receipts : Q) :
  (0 < days)%Z -> 0 <= miles -> 0 <= receipts -> 0 <= reimbursement_total days miles receipts.
Proof.
  intros Hd Hm Hr.
  assert (D : 0 <= inject_Z days) by (change 0 with (inject_Z 0); rewrite <- Zle_Qle; lia).
  pose proof (receipt_component_nonneg receipts Hr) as C.
  unfold reimbursement_total, calculate_outlier_reimbursement.
  generalize (detect_outlier_case days miles receipts) as t; intro t.
  revert C; generalize (calculate_receipt_component receipts) as c; intros c C.
  cbn [f_ofZ f_lit f_add f_sub f_mul f_lt PyNum_Q].
  rewrite ?inject_Z_plus, ?inject_Z_mult. lit_Z.
  split_ifs; cmp_facts; lra.
Qed.



(** C6, as stated: a valid call classified [normal] with 10^308 days
    does not return; [100 + days * 20 + miles * 0.3] (line 146) converts
    an int beyond the float range and raises [OverflowError], which is
    not caught. *)
Lemma normal_trip_huge_days_raises :
  detect_outlier_case (F:=flt) (10 ^ 308)%Z (Fin 0) (Fin 900) = "normal"%string /\
  calculate_reimbursement_dec (VInt (10 ^ 308)%Z) (VInt 0) (VInt 900) = Raises OverflowError.
Proof. split; vm_compute; reflexivity. Qed.

(** C6, amended: a valid call classified [normal], with at most 10^300
    days, returns the rounded value of the formula of its receipt
    level. *)
Theorem normal_branch_formulas pi pf (d m r : pyval) (days : Z) (miles receipts : Q) :
  py_int pi d = inr days -> py_float pf m = inr (Fin miles) -> py_float pf r = inr (Fin receipts) ->
  (0 < days)%Z -> (days <= 10 ^ 300)%Z -> 0 <= miles -> 0 <= receipts ->
  detect_outlier_case days miles receipts = "normal"%string ->
  (800 < receipts -> calculate_reimbursement pi pf d m r
     = Returns (Fin (round2Q (100 + inject_Z days * 20 + miles * 0.3
                              + calculate_receipt_component receipts)))) /\
  (200 < receipts <= 800 -> calculate_reimbursement pi pf d m r
     = Returns (Fin (round2Q (50 + inject_Z days * 35 + miles * 0.4 + receipts * 0.8)))) /\
  (receipts <= 200 -> calculate_reimbursement pi pf d m r
     = Returns (Fin (round2Q (inject_Z days * 50 + miles * 0.5 + receipts * 0.1)))).
Proof.
  intros Ed Em Er Hd Hmax Hm Hr Hn.
  rewrite (calculate_reimbursement_valid pi pf d m r days miles receipts Ed Em Er Hd Hmax Hm Hr).
  unfold reimbursement_total. rewrite Hn. cbn [negb String.eqb Ascii.eqb Bool.eqb].
  cbn [f_ofZ f_lit f_add f_mul f_lt PyNum_Q].
  rewrite ?inject_Z_plus, ?inject_Z_mult. lit_Z.
  repeat split; intro B; settle_cmp; do 2 f_equal; apply round2Q_Qeq; ring.
Qed.

(** C7, as stated: a valid call with 2^1024 days does not return; the
    division [receipts / days] (line 22) converts [days] to float and
    raises [OverflowError], which is not caught. *)
Lemma huge_days_raise_at_division :
  int_fits_float (2 ^ 1024)%Z = false /\
  calculate_reimbursement_dec (VInt (2 ^ 1024)%Z) (VInt 10) (VInt 10) = Raises OverflowError.
Proof. split; vm_compute; reflexivity. Qed.

(** C7, amended: a valid call with at most 10^300 days returns a
    non-negative whole number of cents: the total rounded to 2 decimals,
    within half a cent of it. *)
Theorem valid_result_nonneg_two_decimals pi pf (d m r : pyval) (days : Z) (miles receipts : Q) :
  py_int pi d = inr days -> py_float pf m = inr (Fin miles) -> py_float pf r = inr (Fin receipts) ->
  (0 < days)%Z -> (days <= 10 ^ 300)%Z -> 0 <= miles -> 0 <= receipts ->
  exists v : Q,
    calculate_reimbursement pi pf d m r = Returns (Fin v) /\
    v = round2Q (reimbursement_total days miles receipts) /\
    0 <= v /\
    exists z : Z, v = z # 100 /\
      - (1 # 200) <= v - reimbursement_total days miles receipts <= 1 # 200.
Proof.
  intros Ed Em Er Hd Hmax Hm Hr.
  exists (round2Q (reimbursement_total days miles receipts)).
  split; [apply (calculate_reimbursement_valid pi pf d m r); assumption|].
  split; [reflexivity|].
  split; [apply round2Q_nonneg, reimbursement_total_nonneg; assumption|].
  destruct (round2Q_spec (reimbursement_total days miles receipts)) as [z [Ez [L U]]].
  exists z. split; [exact Ez|]. rewrite Ez, Qmake_100. split; lra.
Qed.

(** C10: the receipt component drops at 200, 500 and 1000, so it is not
    monotone, and a normal trip with more receipts can be paid less. *)
Theorem receipt_component_not_monotone :
  calculate_receipt_component (F:=Q) 200 == 519.2 /\
  calculate_receipt_component (F:=Q) 201 == 453.21 /\
  calculate_receipt_component (F:=Q) 500 == 934.6 /\
  calculate_receipt_component (F:=Q) 501 == 805.998 /\
  calculate_receipt_component (F:=Q) 1000 == 1304 /\
  calculate_receipt_component (F:=Q) 1001 == 998.3 /\
  ~ (forall a b : Q, a <= b -> calculate_receipt_component a <= calculate_receipt_component b) /\
  exists (days miles r1 r2 : Z), (r1 < r2)%Z /\ (800 < r1)%Z /\
    detect_outlier_case (F:=Q) days (inject_Z miles) (inject_Z r1) = "normal"%string /\
    detect_outlier_case (F:=Q) days (inject_Z miles) (inject_Z r2) = "normal"%string /\
    forall pi pf, exists v1 v2 : Q,
      calculate_reimbursement pi pf (VInt days) (VInt miles) (VInt r1) = Returns (Fin v1) /\
      calculate_reimbursement pi pf (VInt days) (VInt miles) (VInt r2) = Returns (Fin v2) /\
      v2 < v1.
Proof.
  do 6 (split; [reflexivity|]).
  split.
  { intro Mono. specialize (Mono 200 201).
    assert (X : calculate_receipt_component (F:=Q) 200 <= calculate_receipt_component (F:=Q) 201)
      by (apply Mono; lra).
    revert X. vm_compute. intro X. apply X. reflexivity. }
  exists 5%Z, 200%Z, 1000%Z, 1001%Z.
  split; [lia|]. split; [lia|]. split; [reflexivity|]. split; [reflexivity|].
  intros pi pf. exists 1564.00, 1258.30.
  split; [vm_compute; reflexivity|]. split; [vm_compute; reflexivity|].
  lra.
Qed.

(** ** Witnesses: the theorems with hypotheses, applied at concrete calls *)

Lemma gaming_detection_precedes_heavy_cap_witness :
  (2000 < 2350 /\ (3 <= 4)%Z /\ 50 <= 100 /\ 2300 < 2350 /\ (3 <= 5)%Z) /\
  detect_outlier_case (F:=Q) 3 50 2350 = "gaming_detection"%string.
Proof.
  split; [repeat split; first [lia | lra]|].
  apply (gaming_detection_precedes_heavy_cap (F:=Q) 3 50 2350);
    first [reflexivity | lia].
Defined.


Lemma normal_branch_formulas_witness :
  calculate_reimbursement_dec (VInt 2) (VInt 300) (VInt 900) = Returns (Fin 1434.20) /\
  calculate_reimbursement_dec (VInt 1) (VInt 0) (VInt 0) = Returns (Fin 50.00).
Proof.
  unfold calculate_reimbursement_dec. split.
  - rewrite (proj1 (normal_branch_formulas dec_int_of_str dec_float_of_str
                      (VInt 2) (VInt 300) (VInt 900) 2 300 900
                      eq_refl eq_refl eq_refl ltac:(lia) ltac:(apply Z.leb_le; vm_compute; reflexivity)
                      ltac:(lra) ltac:(lra) eq_refl)
                   ltac:(lra)).
    vm_compute. reflexivity.
  - rewrite (proj2 (proj2 (normal_branch_formulas dec_int_of_str dec_float_of_str
                             (VInt 1) (VInt 0) (VInt 0) 1 0 0
                             eq_refl eq_refl eq_refl ltac:(lia) ltac:(apply Z.leb_le; vm_compute; reflexivity)
                      ltac:(lra) ltac:(lra) eq_refl))
                   ltac:(lra)).
    vm_compute. reflexivity.
Defined.

Lemma valid_result_nonneg_two_decimals_witness :
  exists v : Q,
    calculate_reimbursement_dec (VStr "3") (VStr "120.5") (VStr "612.37") = Returns (Fin v) /\
    0 <= v /\ exists z : Z, v = z # 100.
Proof.
  destruct (valid_result_nonneg_two_decimals dec_int_of_str dec_float_of_str
              (VStr "3") (VStr "120.5") (VStr "612.37") 3 120.5 612.37
              eq_refl eq_refl eq_refl ltac:(lia) ltac:(apply Z.leb_le; vm_compute; reflexivity)
                      ltac:(lra) ltac:(lra))
    as (v & E & _ & N & z & Ez & _).
  exists v. split; [exact E|]. split; [exact N|]. exists z. exact Ez.
Defined.

Lemma heavy_cap_iff_five_days_witness :
  (0 < 5)%Z /\ 0 <= 50 /\ 0 <= 2400 /\
  detect_outlier_case (F:=Q) 5 50 2400 = "heavy_cap"%string.
Proof.
  split; [lia|]. split; [lra|]. split; [lra|].
  apply (proj2 (heavy_cap_iff_five_days 5 50 2400 ltac:(lia) ltac:(lra) ltac:(lra))).
  split; [reflexivity|]. split; lra.
Defined.

(** ** Further properties of the module *)

(** Settles the int comparisons of a goal from the hypotheses, by [lia]. *)
Ltac settle_zcmp :=
  repeat match goal with
  | |- context [(?a <=? ?b)%Z] =>
      first [ rewrite (proj2 (Z.leb_le a b)) by lia
            | rewrite (proj2 (Z.leb_gt a b)) by lia ]
  | |- context [(?a =? ?b)%Z] =>
      first [ rewrite (proj2 (Z.eqb_eq a b)) by lia
            | rewrite (proj2 (Z.eqb_neq a b)) by lia ]
  end.

(** Evaluates [reimbursement_total] on finite values whose comparisons the
    hypotheses decide. *)
Ltac eval_total :=
  unfold reimbursement_total, detect_outlier_case, calculate_outlier_reimbursement;
  cbn [f_ofZ f_lit f_add f_sub f_mul f_lt f_le PyNum_Q];
  settle_cmp; settle_zcmp;
  rewrite ?andb_false_r, ?andb_true_r;
  cbn [andb negb String.eqb Ascii.eqb Bool.eqb];
  rewrite ?inject_Z_plus, ?inject_Z_mult; lit_Z.

(** A trip with receipts of at most 1800 is always classified [normal]. *)
Theorem low_receipts_normal (days : Z) (miles receipts : Q) :
  receipts <= 1800 -> detect_outlier_case days miles receipts = "normal"%string.
Proof.
  intro Hr. unfold detect_outlier_case. cbn [f_ofZ f_lt f_le PyNum_Q].
  settle_cmp. rewrite !andb_false_r. reflexivity.
Qed.

(** [abuse_detection] is never shadowed by the two rules checked before
    it: the classifier answers it exactly for 1-day trips with more than
    1000 miles and receipts above 1800. *)
Theorem abuse_detection_iff (days : Z) (miles receipts : Q) :
  detect_outlier_case days miles receipts = "abuse_detection"%string <->
  days = 1%Z /\ 1000 < miles /\ 1800 < receipts.
Proof.
  unfold detect_outlier_case. cbn [f_ofZ f_lt f_le PyNum_Q].
  destruct (Qltb (inject_Z 2000) receipts) eqn:E1,
           (days <=? 4)%Z eqn:E2, (Qle_bool miles (inject_Z 100)) eqn:E3,
           (Qltb (inject_Z 2300) receipts) eqn:E4, (days <=? 5)%Z eqn:E5,
           (days =? 1)%Z eqn:E6, (Qltb (inject_Z 1000) miles) eqn:E7,
           (Qltb (inject_Z 1800) receipts) eqn:E8;
    cbn [andb]; cmp_facts; unfold inject_Z in *;
    (split; [intro X|intros (X1 & X2 & X3)]);
    try discriminate; try (exfalso; lia); try (exfalso; lra);
    try (repeat split; first [lia | lra]).
Qed.

(** A trip of more than 100 miles is [normal] or [abuse_detection]: the
    [gaming_detection] and [heavy_cap] rules only apply up to 100 miles. *)
Theorem long_trip_normal_or_abuse (days : Z) (miles receipts : Q) :
  100 < miles ->
  detect_outlier_case days miles receipts = "normal"%string \/
  detect_outlier_case days miles receipts = "abuse_detection"%string.
Proof.
  intro Hm. unfold detect_outlier_case. cbn [f_ofZ f_lt f_le PyNum_Q].
  settle_cmp. rewrite !andb_false_r. split_ifs; auto.
Qed.

(** The mileage cliff of 1-day trips: with receipts above 1800, one more
    mile past 1000 moves the trip from [normal] to [abuse_detection] and
    lowers the total by 727.65 + 0.18 * receipts. *)
Theorem one_day_mileage_cliff (receipts : Q) :
  1800 < receipts ->
  reimbursement_total 1 1000 receipts - reimbursement_total 1 1001 receipts
  == 727.65 + 0.18 * receipts.
Proof.
  intro Hr. eval_total.
  rewrite (receipt_component_band5 receipts) by lra. ring.
Qed.

(** The receipt cliff of short low-mileage trips: for at most 4 days and
    at most 100 miles, receipts just above 2000 move the trip from
    [normal] to [gaming_detection]; the total at receipts r is
    1398 - 15 * days - 0.08 * r below the total at 2000, so any r up to
    16000 is paid less than 2000. *)
Theorem gaming_receipt_cliff (days : Z) (miles receipts : Q) :
  (0 < days <= 4)%Z -> 0 <= miles <= 100 -> 2000 < receipts ->
  reimbursement_total days miles 2000 - reimbursement_total days miles receipts
  == 1398 - inject_Z days * 15 - 0.08 * receipts /\
  (receipts <= 16000 ->
   reimbursement_total days miles receipts < reimbursement_total days miles 2000).
Proof.
  intros Hd Hm Hr.
  assert (E : reimbursement_total days miles 2000 - reimbursement_total days miles receipts
              == 1398 - inject_Z days * 15 - 0.08 * receipts).
  { eval_total. rewrite (receipt_component_band5 2000) by lra. ring. }
  split; [exact E|].
  intro Hr2. assert (D : inject_Z days <= 4) by (change 4 with (inject_Z 4); rewrite <- Zle_Qle; lia).
  lra.
Qed.

(** The day cliff of 1-day [abuse_detection] trips: the same trip over 2
    days is [normal], and the 1-day total minus the 2-day total is
    0.05 * miles - 0.18 * receipts - 798, positive for large mileage. *)
Theorem abuse_one_day_vs_two_days (miles receipts : Q) :
  1000 < miles -> 1800 < receipts ->
  reimbursement_total 1 miles receipts - reimbursement_total 2 miles receipts
  == 0.05 * miles - 0.18 * receipts - 798.
Proof.
  intros Hm Hr. eval_total.
  rewrite (receipt_component_band5 receipts) by lra. ring.
Qed.

Lemma detect_outlier_case_cases {F : Type} `{PyNum F} (days : Z) (miles receipts : F) :
  detect_outlier_case days miles receipts = "normal"%string \/
  detect_outlier_case days miles receipts = "gaming_detection"%string \/
  detect_outlier_case days miles receipts = "heavy_cap"%string \/
  detect_outlier_case days miles receipts = "abuse_detection"%string.
Proof. unfold detect_outlier_case. split_ifs; auto. Qed.

(** nan slips through the validation ([nan < 0] is false): with valid
    days (at most 10^300), a nan mileage or a nan receipt total (and the
    other value not negative) makes [calculate_reimbursement] return nan,
    not 0.0. *)
Theorem nan_input_returns_nan pi pf (d m r : pyval) (days : Z) (miles receipts : flt) :
  py_int pi d = inr days -> (0 < days <= 10 ^ 300)%Z ->
  py_float pf m = inr miles -> py_float pf r = inr receipts ->
  (miles = NaN /\ flt_lt receipts (f_ofZ 0) = false) \/
  (receipts = NaN /\ flt_lt miles (f_ofZ 0) = false) ->
  calculate_reimbursement pi pf d m r = Returns NaN.
Proof.
  intros Ed Hd Em Er Hn. unfold calculate_reimbursement, reimbursement_try.
  rewrite Ed, Em, Er.
  assert (Z0 : (days <=? 0)%Z = false) by (apply Z.leb_gt; lia). rewrite Z0.
  rewrite (conversions_fit days miles receipts Hd).
  destruct Hn as [[-> Hr]|[-> Hm]].
  - rewrite Hr. cbn [orb f_ofZ PyNum_flt flt_lt].
    assert (N : detect_outlier_case days NaN receipts = "normal"%string).
    { unfold detect_outlier_case. cbn [f_ofZ f_lt f_le PyNum_flt flt_lt flt_le].
      rewrite !andb_false_r, andb_false_l. reflexivity. }
    unfold reimbursement_total. rewrite N.
    cbn [negb String.eqb Ascii.eqb Bool.eqb f_ofZ f_lit f_add f_sub f_mul f_lt PyNum_flt].
    unfold calculate_receipt_component. cbn [f_ofZ f_lit f_add f_sub f_mul f_lt PyNum_flt].
    split_ifs; reflexivity.
  - rewrite Hm. cbn [orb f_ofZ PyNum_flt flt_lt].
    assert (N : detect_outlier_case days miles NaN = "normal"%string).
    { unfold detect_outlier_case. cbn [f_ofZ f_lt f_le PyNum_flt flt_lt flt_le andb].
      rewrite !andb_false_r. reflexivity. }
    unfold reimbursement_total. rewrite N.
    cbn [negb String.eqb Ascii.eqb Bool.eqb f_ofZ f_lit f_add f_sub f_mul f_lt PyNum_flt flt_lt].
    cbn [fadd fmul]. destruct miles; reflexivity.
Qed.

(** An infinite receipt total is accepted: with valid days (at most
    10^300) and a finite mileage, whatever rule classifies the trip, the
    call returns inf. *)
Theorem infinite_receipts_return_inf pi pf (d m r : pyval) (days : Z) (miles : Q) :
  py_int pi d = inr days -> (0 < days <= 10 ^ 300)%Z ->
  py_float pf m = inr (Fin miles) -> 0 <= miles -> py_float pf r = inr PInf ->
  calculate_reimbursement pi pf d m r = Returns PInf.
Proof.
  intros Ed Hd Em Hm Er. unfold calculate_reimbursement, reimbursement_try.
  rewrite Ed, Em, Er.
  assert (Z0 : (days <=? 0)%Z = false) by (apply Z.leb_gt; lia). rewrite Z0.
  rewrite (conversions_fit days (Fin miles) PInf Hd).
  cbn [orb f_ofZ PyNum_flt flt_lt]. settle_cmp. cbn [orb].
  unfold reimbursement_total.
  destruct (detect_outlier_case_cases days (Fin miles) PInf) as [E|[E|[E|E]]]; rewrite E;
    reflexivity.
Qed.

(** [int()] truncates a float day count toward zero before the check
    [days <= 0]: any float strictly between -1 and 1 makes the call return
    0.0, unless [float()] of the mileage or of the receipt total raises
    [OverflowError]. *)
Theorem fractional_days_return_zero pi pf (q : Q) (m r : pyval) :
  -1 < q < 1 ->
  py_float pf m <> inl OverflowError -> py_float pf r <> inl OverflowError ->
  calculate_reimbursement pi pf (VFloat (Fin q)) m r = Returns (Fin 0).
Proof.
  intros [L U] Om Or. unfold Qlt in L, U. cbn in L, U.
  assert (Q0 : Z.quot (Qnum q) (Zpos (Qden q)) = 0%Z)
    by (apply Z.quot_small_iff; [lia | change (Z.abs (Zpos (Qden q))) with (Zpos (Qden q)); apply Z.abs_lt; lia]).
  unfold calculate_reimbursement, reimbursement_try. cbn [py_int]. rewrite Q0.
  destruct (py_float pf m) as [[| |]|] eqn:Em;
    [reflexivity | reflexivity | congruence |].
  destruct (py_float pf r) as [[| |]|] eqn:Er;
    [reflexivity | reflexivity | congruence | reflexivity].
Qed.

Lemma round2Q_mono (a b : Q) : a <= b -> round2Q a <= round2Q b.
Proof.
  intro Hab. unfold round2Q.
  assert (Hn : a * 100 <= b * 100) by lra.
  pose proof (Qfloor_resp_le _ _ Hn) as Hf.
  set (fa := Qfloor (a * 100)) in *. set (fb := Qfloor (b * 100)) in *.
  destruct (Z.eq_dec fa fb) as [E|NE].
  - rewrite <- E.
    repeat match goal with |- context [if ?c then _ else _] => let X := fresh "C" in destruct c eqn:X end;
      cmp_facts; unfold Qle; cbn [Qnum Qden]; first [lia | exfalso; lra].
  - repeat match goal with |- context [if ?c then _ else _] => destruct c end;
      unfold Qle; cbn [Qnum Qden]; lia.
Qed.

(** Case analysis on every comparison of a goal. *)
Ltac case_atoms :=
  repeat match goal with
  | |- context [Qltb ?a ?b] => let E := fresh "E" in destruct (Qltb a b) eqn:E
  | |- context [Qle_bool ?a ?b] => let E := fresh "E" in destruct (Qle_bool a b) eqn:E
  | |- context [(?a <=? ?b)%Z] => let E := fresh "E" in destruct (a <=? b)%Z eqn:E
  end.

(** Turns int comparisons into comparisons of their float conversions. *)
Ltac z_to_q :=
  repeat match goal with
  | H : (?a <= ?b)%Z |- _ => rewrite (Zle_Qle a b) in H
  | H : (?a < ?b)%Z |- _ => rewrite (Zlt_Qlt a b) in H
  end;
  rewrite ?inject_Z_plus in *; lit_Z.

(** Splits two or more totals of trips of at least 2 days on the
    comparisons they make; the receipt component stays abstract. *)
Ltac total_cases :=
  unfold reimbursement_total, detect_outlier_case;
  cbn [f_ofZ f_lit f_add f_sub f_mul f_lt f_le PyNum_Q];
  settle_zcmp; rewrite ?andb_false_l;
  case_atoms; cbn [andb negb String.eqb Ascii.eqb Bool.eqb];
  unfold calculate_outlier_reimbursement;
  cbn [f_ofZ f_lit f_add f_sub f_mul f_lt f_le PyNum_Q String.eqb Ascii.eqb Bool.eqb];
  rewrite ?inject_Z_plus, ?inject_Z_mult; lit_Z; cmp_facts; z_to_q.

Lemma reimbursement_total_mono_miles (days : Z) (m1 m2 r : Q) :
  (2 <= days)%Z -> 0 <= m1 <= m2 -> 0 <= r ->
  reimbursement_total days m1 r <= reimbursement_total days m2 r.
Proof.
  intros Hd Hm Hr.
  assert (C : 1000 < r -> calculate_receipt_component r == 998 + (r - 1000) * 0.3)
    by (intro B; rewrite (receipt_component_band5 r B); lra).
  pose proof (receipt_component_nonneg r Hr) as C0.
  total_cases; try (destruct (Qlt_le_dec 1000 r) as [B|B]; [specialize (C B)|]); lra.
Qed.

Lemma reimbursement_total_mono_days_succ (days : Z) (m r : Q) :
  (2 <= days)%Z -> 0 <= m -> 0 <= r ->
  reimbursement_total days m r <= reimbursement_total (days + 1) m r.
Proof.
  intros Hd Hm Hr.
  assert (C : 1000 < r -> calculate_receipt_component r == 998 + (r - 1000) * 0.3)
    by (intro B; rewrite (receipt_component_band5 r B); lra).
  pose proof (receipt_component_nonneg r Hr) as C0.
  total_cases; try (destruct (Qlt_le_dec 1000 r) as [B|B]; [specialize (C B)|]); lra.
Qed.

Lemma reimbursement_total_mono_days (d1 d2 : Z) (m r : Q) :
  (2 <= d1 <= d2)%Z -> 0 <= m -> 0 <= r ->
  reimbursement_total d1 m r <= reimbursement_total d2 m r.
Proof.
  intros Hd Hm Hr.
  assert (K : forall n : nat, reimbursement_total d1 m r <= reimbursement_total (d1 + Z.of_nat n) m r).
  { induction n as [|n IH].
    - rewrite Z.add_0_r. apply Qle_refl.
    - rewrite Nat2Z.inj_succ, Z.add_succ_r, <- Z.add_1_r.
      eapply Qle_trans; [exact IH|].
      apply reimbursement_total_mono_days_succ; [lia|exact Hm|exact Hr]. }
  specialize (K (Z.to_nat (d2 - d1))).
  rewrite Z2Nat.id, Zplus_minus in K by lia. exact K.
Qed.

(** For trips of 2 to 10^300 days, the amount returned never decreases
    when the mileage grows (receipts and days fixed), across every change
    of rule, and [round] keeps the order. *)
Theorem reimbursement_monotone_in_miles pi pf (d m1 m2 r : pyval) (days : Z) (miles1 miles2 receipts : Q) :
  py_int pi d = inr days -> py_float pf m1 = inr (Fin miles1) ->
  py_float pf m2 = inr (Fin miles2) -> py_float pf r = inr (Fin receipts) ->
  (2 <= days <= 10 ^ 300)%Z -> 0 <= miles1 <= miles2 -> 0 <= receipts ->
  exists v1 v2 : Q,
    calculate_reimbursement pi pf d m1 r = Returns (Fin v1) /\
    calculate_reimbursement pi pf d m2 r = Returns (Fin v2) /\ v1 <= v2.
Proof.
  intros Ed Em1 Em2 Er Hd Hm Hr.
  exists (round2Q (reimbursement_total days miles1 receipts)),
         (round2Q (reimbursement_total days miles2 receipts)).
  split; [apply calculate_reimbursement_valid; auto; first [lia | lra]|].
  split; [apply calculate_reimbursement_valid; auto; first [lia | lra]|].
  apply round2Q_mono, reimbursement_total_mono_miles; auto; lia.
Qed.

(** For trips of 2 to 10^300 days, the amount returned never decreases
    when the trip gets longer (miles and receipts fixed), also where the
    trip leaves the [gaming_detection] or [heavy_cap] rule. *)
Theorem reimbursement_monotone_in_days pi pf (d1 d2 m r : pyval) (days1 days2 : Z) (miles receipts : Q) :
  py_int pi d1 = inr days1 -> py_int pi d2 = inr days2 ->
  py_float pf m = inr (Fin miles) -> py_float pf r = inr (Fin receipts) ->
  (2 <= days1 <= days2)%Z -> (days2 <= 10 ^ 300)%Z -> 0 <= miles -> 0 <= receipts ->
  exists v1 v2 : Q,
    calculate_reimbursement pi pf d1 m r = Returns (Fin v1) /\
    calculate_reimbursement pi pf d2 m r = Returns (Fin v2) /\ v1 <= v2.
Proof.
  intros Ed1 Ed2 Em Er Hd Hmax Hm Hr.
  exists (round2Q (reimbursement_total days1 miles receipts)),
         (round2Q (reimbursement_total days2 miles receipts)).
  split; [apply calculate_reimbursement_valid; auto; first [lia | lra]|].
  split; [apply calculate_reimbursement_valid; auto; first [lia | lra]|].
  apply round2Q_mono, reimbursement_total_mono_days; auto; lia.
Qed.

(** The command line with a number of arguments other than three prints
    the usage and exits with status 1. *)
Theorem cli_wrong_arg_count_usage pi pf (argv : list string) :
  length argv <> 4%nat -> cli_main pi pf argv = ([OutUsage], 1%Z).
Proof.
  intro H. unfold cli_main. apply Nat.eqb_neq in H. rewrite H. reflexivity.
Qed.

(** The command line on three arguments whose call fails with an error
    other than [OverflowError] (an argument that [int] or [float] rejects,
    or a value below the bounds) prints the error, then 0.0, and exits
    with status 0. *)
Theorem cli_failed_call_prints_zero pi pf (prog a b c : string) (e : exn) :
  reimbursement_try pi pf (VStr a) (VStr b) (VStr c) = inl e -> e <> OverflowError ->
  cli_main pi pf [prog; a; b; c] = ([OutError; OutValue (Fin 0)], 0%Z).
Proof.
  intros E N.
  unfold cli_main, calculate_reimbursement_io. cbn [length Nat.eqb negb].
  rewrite E. destruct e; [reflexivity | reflexivity | congruence].
Qed.

(** The command line on three arguments whose call overflows (a day
    count whose arithmetic leaves the float range) prints only the error
    and exits with status 1: the [OverflowError] escapes
    [calculate_reimbursement] and reaches [except Exception]. *)
Theorem cli_overflow_exits_one pi pf (prog a b c : string) :
  reimbursement_try pi pf (VStr a) (VStr b) (VStr c) = inl OverflowError ->
  cli_main pi pf [prog; a; b; c] = ([OutError], 1%Z).
Proof.
  intro E. unfold cli_main, calculate_reimbursement_io. cbn [length Nat.eqb negb].
  rewrite E. reflexivity.
Qed.

(** The command line on three valid arguments, with at most 10^300
    days, prints exactly one line, the rounded total, and exits with
    status 0. *)
Theorem cli_valid_prints_total pi pf (prog a b c : string) (days : Z) (miles receipts : Q) :
  pi a = Some days -> pf b = Some (Fin miles) -> pf c = Some (Fin receipts) ->
  (0 < days <= 10 ^ 300)%Z -> 0 <= miles -> 0 <= receipts ->
  cli_main pi pf [prog; a; b; c]
  = ([OutValue (Fin (round2Q (reimbursement_total days miles receipts)))], 0%Z).
Proof.
  intros Ea Eb Ec Hd Hm Hr.
  unfold cli_main, calculate_reimbursement_io, reimbursement_try.
  cbn [length Nat.eqb negb py_int py_float]. rewrite Ea, Eb, Ec.
  assert (Z0 : (days <=? 0)%Z = false) by (apply Z.leb_gt; lia).
  rewrite Z0. cbn [orb f_ofZ PyNum_flt flt_lt]. settle_cmp. cbn [orb].
  rewrite (conversions_fit days (Fin miles) (Fin receipts) Hd).
  rewrite reimbursement_total_fin. reflexivity.
Qed.

(** ** Witnesses of the further properties *)

(** Side conditions of a theorem at concrete values. *)
Ltac side_goal :=
  first [ reflexivity | lia | lra
        | apply Z.leb_le; vm_compute; reflexivity
        | vm_compute; discriminate
        | split; side_goal ].

Lemma low_receipts_normal_witness :
  500 <= 1800 /\ detect_outlier_case (F:=Q) 3 200 500 = "normal"%string.
Proof. split; [lra|]. apply (low_receipts_normal 3 200 500); lra. Defined.

Lemma long_trip_normal_or_abuse_witness :
  100 < 1200 /\
  (detect_outlier_case (F:=Q) 1 1200 2000 = "normal"%string \/
   detect_outlier_case (F:=Q) 1 1200 2000 = "abuse_detection"%string).
Proof. split; [lra|]. apply (long_trip_normal_or_abuse 1 1200 2000); lra. Defined.

Lemma one_day_mileage_cliff_witness :
  1800 < 2000 /\
  reimbursement_total 1 1000 2000 - reimbursement_total 1 1001 2000 == 727.65 + 0.18 * 2000.
Proof. split; [lra|]. apply (one_day_mileage_cliff 2000); lra. Defined.

Lemma gaming_receipt_cliff_witness :
  (0 < 3 <= 4)%Z /\ 0 <= 50 <= 100 /\ 2000 < 2500 /\
  reimbursement_total 3 50 2500 < reimbursement_total 3 50 2000.
Proof.
  split; [lia|]. split; [lra|]. split; [lra|].
  apply (proj2 (gaming_receipt_cliff 3 50 2500 ltac:(lia) ltac:(lra) ltac:(lra))); lra.
Defined.

Lemma abuse_one_day_vs_two_days_witness :
  1000 < 1200 /\ 1800 < 2000 /\
  reimbursement_total 1 1200 2000 - reimbursement_total 2 1200 2000
  == 0.05 * 1200 - 0.18 * 2000 - 798.
Proof.
  split; [lra|]. split; [lra|].
  apply (abuse_one_day_vs_two_days 1200 2000); lra.
Defined.

Lemma nan_input_returns_nan_witness :
  calculate_reimbursement_dec (VStr "3") (VFloat NaN) (VStr "100") = Returns NaN.
Proof.
  unfold calculate_reimbursement_dec.
  apply (nan_input_returns_nan dec_int_of_str dec_float_of_str
           (VStr "3") (VFloat NaN) (VStr "100") 3 NaN (Fin 100));
    try side_goal.
  left. split; reflexivity.
Defined.

Lemma infinite_receipts_return_inf_witness :
  calculate_reimbursement_dec (VStr "3") (VStr "100") (VFloat PInf) = Returns PInf.
Proof.
  unfold calculate_reimbursement_dec.
  apply (infinite_receipts_return_inf dec_int_of_str dec_float_of_str
           (VStr "3") (VStr "100") (VFloat PInf) 3 100); side_goal.
Defined.

Lemma fractional_days_return_zero_witness :
  calculate_reimbursement_dec (VFloat (Fin 0.5)) (VStr "10") (VStr "10") = Returns (Fin 0).
Proof.
  unfold calculate_reimbursement_dec.
  apply fractional_days_return_zero; side_goal.
Defined.

Lemma reimbursement_monotone_in_miles_witness :
  exists v1 v2 : Q,
    calculate_reimbursement_dec (VStr "3") (VStr "100") (VStr "2100") = Returns (Fin v1) /\
    calculate_reimbursement_dec (VStr "3") (VStr "150") (VStr "2100") = Returns (Fin v2) /\
    v1 <= v2.
Proof.
  unfold calculate_reimbursement_dec.
  apply (reimbursement_monotone_in_miles dec_int_of_str dec_float_of_str
           (VStr "3") (VStr "100") (VStr "150") (VStr "2100") 3 100 150 2100); side_goal.
Defined.

Lemma reimbursement_monotone_in_days_witness :
  exists v1 v2 : Q,
    calculate_reimbursement_dec (VStr "4") (VStr "50") (VStr "2400") = Returns (Fin v1) /\
    calculate_reimbursement_dec (VStr "5") (VStr "50") (VStr "2400") = Returns (Fin v2) /\
    v1 <= v2.
Proof.
  unfold calculate_reimbursement_dec.
  apply (reimbursement_monotone_in_days dec_int_of_str dec_float_of_str
           (VStr "4") (VStr "5") (VStr "50") (VStr "2400") 4 5 50 2400); side_goal.
Defined.

Lemma cli_wrong_arg_count_usage_witness :
  cli_main dec_int_of_str dec_float_of_str (["calculate_reimbursement.py"; "3"; "100"])%string
  = ([OutUsage], 1%Z).
Proof. apply cli_wrong_arg_count_usage. cbn. lia. Defined.

Lemma cli_failed_call_prints_zero_witness :
  cli_main dec_int_of_str dec_float_of_str (["calculate_reimbursement.py"; "abc"; "100"; "50"])%string
  = ([OutError; OutValue (Fin 0)], 0%Z).
Proof. apply (cli_failed_call_prints_zero _ _ _ _ _ _ ValueError); side_goal. Defined.

Lemma cli_overflow_exits_one_witness :
  cli_main dec_int_of_str dec_float_of_str
    (["calculate_reimbursement.py"; 
     "100000000000000000000000000000000000000000000000000000000000000000000000000000000000000000000000000000000000000000000000000000000000000000000000000000000000000000000000000000000000000000000000000000000000000000000000000000000000000000000000000000000000000000000000000000000000000000000000000000000000000000000"; "0"; "900"])%string
  = ([OutError], 1%Z).
Proof. apply cli_overflow_exits_one. vm_compute. reflexivity. Defined.

Lemma cli_valid_prints_total_witness :
  cli_main dec_int_of_str dec_float_of_str (["calculate_reimbursement.py"; "3"; "120.5"; "612.37"])%string
  = ([OutValue (Fin (round2Q (reimbursement_total 3 120.5 612.37)))], 0%Z).
Proof. apply cli_valid_prints_total; side_goal. Defined.
